(** * Sparsity-plot script of MatrixBandwidth.jl (joss/temp/temp.py)

    A shallow embedding of the seventeen-line script that loads three
    matrices, draws a spy plot of each and saves it as a PNG.

    The script itself is a [for] loop over three calls into numpy,
    scipy and matplotlib.  What belongs to the script (the constants,
    the order of the calls, the arguments passed, the absence of any
    [try]) is embedded as written.  What belongs to the libraries and
    the operating system is either a parameter ([Libs]: the decoder,
    the conversion to CSC, the rasteriser) or a small explicit model
    whose assumptions are stated where it is defined (the file system,
    pyplot's stack of figures, the data selected by [Axes.spy]). *)

From Stdlib Require Import QArith Qabs.
From stdpp Require Import gmap strings list fin_maps.

Close Scope Q_scope.

(** ** pathlib *)

(** A pure POSIX path: the anchor (absolute or not) and the components
    after it.  [Path("/a/b")] is [(true, ["a"; "b"])], [Path(".")] is
    [(false, [])]. *)
Abbreviation path := (bool * list string)%type.

Module Pathlib.

(** [p.parent]: the path without its last component; the root and the
    empty relative path are their own parents. *)
Definition parent (p : path) : path := (p.1, removelast p.2).

(** [p / s] for a right operand that is one component (no separator),
    which is the case of every operand the script uses. *)
Definition joinpath (p : path) (s : string) : path := (p.1, p.2 ++ [s]).

End Pathlib.

Declare Scope path_scope.
Delimit Scope path_scope with path.
Notation "p / s" := (Pathlib.joinpath p s) : path_scope.

(** ** Exceptions and the operating system *)

Abbreviation bytes := (list Byte.byte).

(** An exception raised inside a library on the data it was given: its
    class and its message. *)
Record pyerr := PyErr { err_class : string; err_msg : string }.

Inductive exn :=
| FileNotFoundError (filename : path)
| PermissionError (filename : path)
| Raised (e : pyerr).

(** The files with their contents, and the directories with whether a
    file may be created in them. *)
Record filesystem := FileSystem {
  files : gmap path bytes;
  dirs : gmap path bool
}.

(** [open(p, "rb").read()] *)
Definition fs_read (fs : filesystem) (p : path) : exn + bytes :=
  match files fs !! p with
  | Some b => inr b
  | None => inl (FileNotFoundError p)
  end.

(** [open(p, "wb").write(b)]: the directory of [p] has to exist and to
    allow writing; the write itself is taken to be atomic. *)
Definition fs_write (fs : filesystem) (p : path) (b : bytes) : exn + filesystem :=
  match dirs fs !! Pathlib.parent p with
  | None => inl (FileNotFoundError p)
  | Some false => inl (PermissionError p)
  | Some true => inr (FileSystem (<[p := b]> (files fs)) (dirs fs))
  end.

(** ** scipy.sparse: compressed sparse columns *)

(** A CSC array, column by column: column [j] lists its stored entries
    (row index, value) in storage order.  scipy's [indptr], [indices]
    and [data] are the running lengths and the concatenations of the
    columns.  Values are exact rationals. *)
Record csc := Csc {
  nrows : nat;
  columns : list (list (nat * Q))
}.

Definition ncols (m : csc) : nat := length (columns m).

Fixpoint indptr_from (k : nat) (cols : list (list (nat * Q))) : list nat :=
  match cols with
  | [] => [k]
  | c :: cs => k :: indptr_from (k + length c) cs
  end.

Definition indptr (m : csc) : list nat := indptr_from 0 (columns m).
Definition indices (m : csc) : list nat := fst <$> concat (columns m).
Definition data (m : csc) : list Q := snd <$> concat (columns m).

(** [m.tocoo()]: the stored entries as (row, column, value), in storage
    order. *)
Fixpoint coo_from (j : nat) (cols : list (list (nat * Q))) : list (nat * nat * Q) :=
  match cols with
  | [] => []
  | c :: cs => ((λ e, (e.1, j, e.2)) <$> c) ++ coo_from (S j) cs
  end.

Definition tocoo (m : csc) : list (nat * nat * Q) := coo_from 0 (columns m).

(** ** matplotlib: figures, axes and [spy] *)

Record line2d := Line2D {
  xdata : list nat;
  ydata : list nat;
  linestyle : string;
  marker : string;
  markersize : Q;
  color : string
}.

Record axes := Axes {
  ax_lines : list line2d;
  ax_xlim : Q * Q;
  ax_ylim : Q * Q;
  ax_aspect : string;
  ax_axison : bool
}.

Record figure := Figure {
  figsize : Q * Q;
  fig_edgecolor : string;
  fig_linewidth : Q;
  fig_axes : option axes
}.

(** The [precision] argument of [spy]: a number, or ['present']. *)
Inductive precision := Threshold (q : Q) | Present.

Definition Qgtb (a b : Q) : bool := negb (Qle_bool a b).

(** [np.abs(c.data) > precision], or every stored entry for
    ['present']. *)
Definition spy_keep (prec : precision) (e : nat * nat * Q) : bool :=
  match prec with
  | Threshold q => Qgtb (Qabs e.2) q
  | Present => true
  end.

Definition spy_entries (prec : precision) (Z : csc) : list (nat * nat * Q) :=
  filter (λ e, spy_keep prec e = true) (tocoo Z).

Definition half : Q := 1 # 2.

(** A fresh subplot, as [gca()] makes one when the figure has none. *)
Definition new_axes : axes := Axes [] (0, 1)%Q (0, 1)%Q "auto" true.

(** [Axes.spy(Z, precision, **kwargs)] for a sparse [Z], no [marker]
    and no [markersize] argument: the marker branch with marker ["s"];
    the keyword arguments [ms] and [c] of the call set the size and the
    colour of the line.  One point per kept entry, x the column and y
    the row; the limits span the whole shape, rows downwards. *)
Definition axes_spy (Z : csc) (prec : precision) (ms : Q) (c : string) (ax : axes) : axes :=
  let kept := spy_entries prec Z in
  let l := Line2D ((λ e, e.1.2) <$> kept) ((λ e, e.1.1) <$> kept) "None" "s" ms c in
  Axes (ax_lines ax ++ [l])
       (- half, inject_Z (Z.of_nat (ncols Z)) - half)%Q
       (inject_Z (Z.of_nat (nrows Z)) - half, - half)%Q
       "equal" (ax_axison ax).

Definition axes_axis_off (ax : axes) : axes :=
  Axes (ax_lines ax) (ax_xlim ax) (ax_ylim ax) (ax_aspect ax) false.

(** The figure [gcf()] creates when none is open (rcParams defaults). *)
Definition default_figure : figure := Figure (64 # 10, 48 # 10)%Q "white" 0%Q None.

Definition gca (f : figure) : axes := default new_axes (fig_axes f).

Definition with_axes (g : axes → axes) (f : figure) : figure :=
  Figure (figsize f) (fig_edgecolor f) (fig_linewidth f) (Some (g (gca f))).

(** ** The libraries the script calls into *)

Class Libs := {
  (** what [np.load] returns *)
  pyobj : Type;
  (** [np.load] on the contents of an opened file; called as the script
      calls it, with [allow_pickle] left at [False], what it returns or
      raises is decided by the contents *)
  npy_parse : bytes → pyerr + pyobj;
  (** [sp.csc_array(obj)] *)
  to_csc : pyobj → pyerr + csc;
  (** the Agg canvas: a figure drawn at [dpi], with a tight bounding box
      or not, as the bytes of a PNG *)
  print_png : figure → Q → bool → pyerr + bytes
}.

(** ** The interpreter state and the monad of statements *)

Inductive event :=
| EvLoad (p : path)
| EvCsc
| EvFigure
| EvSpy
| EvAxisOff
| EvSave (p : path)
| EvClose.

(** The file system, pyplot's open figures (the current one first) and
    the calls completed so far, oldest first. *)
Record pystate := PyState {
  fs : filesystem;
  figs : list figure;
  trace : list event
}.

(** Where an uncaught exception was raised, as the traceback shows it. *)
Inductive stage := Loading | Decoding | Rendering | Saving.

Abbreviation failure := (stage * exn)%type.

Definition M (A : Type) : Type := pystate → (failure + A) * pystate.

Definition ret {A} (a : A) : M A := λ s, (inr a, s).

Definition bind {A B} (m : M A) (k : A → M B) : M B :=
  λ s, match m s with
       | (inl f, s') => (inl f, s')
       | (inr a, s') => k a s'
       end.

Definition raise {A} (f : failure) : M A := λ s, (inl f, s).

Definition log (e : event) : M unit :=
  λ s, (inr tt, PyState (fs s) (figs s) (trace s ++ [e])).

Definition lift_os {A} (st : stage) (r : exn + A) : M A :=
  match r with inl e => raise (st, e) | inr a => ret a end.

Definition lift_lib {A} (st : stage) (r : pyerr + A) : M A :=
  match r with inl e => raise (st, Raised e) | inr a => ret a end.

Declare Scope py_scope.
Delimit Scope py_scope with py.
Notation "x <- m ; k" := (bind m (λ x, k))
  (at level 100, m at next level, right associativity) : py_scope.
Notation "m ;; k" := (bind m (λ _, k))
  (at level 100, right associativity) : py_scope.
Open Scope py_scope.

Definition get_fs : M filesystem := λ s, (inr (fs s), s).
Definition put_fs (f : filesystem) : M unit := λ s, (inr tt, PyState f (figs s) (trace s)).
Definition get_figs : M (list figure) := λ s, (inr (figs s), s).
Definition put_figs (l : list figure) : M unit := λ s, (inr tt, PyState (fs s) l (trace s)).

(** [gcf()]: the current figure, opened first when there is none. *)
Definition gcf : M figure :=
  l <- get_figs;
  match l with
  | f :: _ => ret f
  | [] => put_figs [default_figure];; ret default_figure
  end.

Definition set_gcf (f : figure) : M unit :=
  l <- get_figs;
  put_figs (f :: tail l).

Section Script.
Context `{Libs}.

(** [np.load(p)] *)
Definition np_load (p : path) : M pyobj :=
  fsys <- get_fs;
  b <- lift_os Loading (fs_read fsys p);
  obj <- lift_lib Decoding (npy_parse b);
  log (EvLoad p);;
  ret obj.

(** [sp.csc_array(obj)] *)
Definition sp_csc_array (obj : pyobj) : M csc :=
  mat <- lift_lib Decoding (to_csc obj);
  log EvCsc;;
  ret mat.

(** [plt.figure(figsize=..., edgecolor=..., linewidth=...)] *)
Definition plt_figure (size : Q * Q) (edgecolor : string) (linewidth : Q) : M unit :=
  l <- get_figs;
  put_figs (Figure size edgecolor linewidth None :: l);;
  log EvFigure.

(** [plt.spy(Z, precision=..., ms=..., c=...)] *)
Definition plt_spy (Z : csc) (prec : precision) (ms : Q) (c : string) : M unit :=
  f <- gcf;
  set_gcf (with_axes (axes_spy Z prec ms c) f);;
  log EvSpy.

(** [plt.axis("off")] *)
Definition plt_axis_off : M unit :=
  f <- gcf;
  set_gcf (with_axes axes_axis_off f);;
  log EvAxisOff.

(** [plt.savefig(p, dpi=..., bbox_inches="tight")]: the figure is
    drawn first, the file opened and written after. *)
Definition plt_savefig (p : path) (dpi : Q) (tight : bool) : M unit :=
  f <- gcf;
  png <- lift_lib Rendering (print_png f dpi tight);
  fsys <- get_fs;
  fsys' <- lift_os Saving (fs_write fsys p png);
  put_fs fsys';;
  log (EvSave p).

(** [plt.close()]: closes the current figure, if there is one. *)
Definition plt_close : M unit :=
  l <- get_figs;
  put_figs (tail l);;
  log EvClose.

(** *** temp.py *)

Definition NAMES : list string := ["A"; "A_min"; "A_rec"].

(** [WD = Path(__file__).parent] *)
Definition WD (file : path) : path := Pathlib.parent file.
(** [SRC_DIR = WD / "npz"] *)
Definition SRC_DIR (file : path) : path := (WD file / "npz")%path.
(** [DST_DIR = WD.parent / "graphics"] *)
Definition DST_DIR (file : path) : path := (Pathlib.parent (WD file) / "graphics")%path.

Definition src_path (src : path) (name : string) : path := (src / (name +:+ ".npz"))%path.
Definition dst_path (dst : path) (name : string) : path := (dst / (name +:+ ".png"))%path.

(** The body of the loop, lines 12 to 17. *)
Definition render_one (src dst : path) (name : string) : M unit :=
  obj <- np_load (src_path src name);
  mat <- sp_csc_array obj;
  plt_figure (6, 6)%Q "black" 2%Q;;
  plt_spy mat (Threshold 0%Q) 4%Q "black";;
  plt_axis_off;;
  plt_savefig (dst_path dst name) 300%Q true;;
  plt_close.

(** [for name in names: body] *)
Fixpoint for_each (names : list string) (body : string → M unit) : M unit :=
  match names with
  | [] => ret tt
  | n :: ns => body n;; for_each ns body
  end.

Definition render_all (names : list string) (src dst : path) : M unit :=
  for_each names (render_one src dst).

(** The script, run from the file [file]. *)
Definition script (file : path) : M unit :=
  render_all NAMES (SRC_DIR file) (DST_DIR file).

End Script.

(** ** Vocabulary of the statements *)

(** The paths saved to, oldest first. *)
Definition saved (tr : list event) : list path :=
  omap (λ e, match e with EvSave p => Some p | _ => None end) tr.

(** The paths loaded from, oldest first. *)
Definition loaded (tr : list event) : list path :=
  omap (λ e, match e with EvLoad p => Some p | _ => None end) tr.

(** The calls of one complete iteration. *)
Definition cycle (src dst : path) (name : string) : list event :=
  [EvLoad (src_path src name); EvCsc; EvFigure; EvSpy; EvAxisOff;
   EvSave (dst_path dst name); EvClose].

(** The calls of an iteration that have completed when [savefig] starts. *)
Definition before_save (src : path) (name : string) : list event :=
  [EvLoad (src_path src name); EvCsc; EvFigure; EvSpy; EvAxisOff].

(** The figure lines 13 to 15 build for a matrix. *)
Definition spy_figure (mat : csc) : figure :=
  with_axes axes_axis_off
    (with_axes (axes_spy mat (Threshold 0%Q) 4%Q "black")
       (Figure (6, 6)%Q "black" 2%Q None)).

(** The points drawn in a figure, as (x, y), over all its lines. *)
Definition points (f : figure) : list (nat * nat) :=
  l ← ax_lines (gca f); zip (xdata l) (ydata l).

(** The (row, column) coordinates of the stored entries whose value is
    not zero, in storage order. *)
Definition nonzero_coords (m : csc) : list (nat * nat) :=
  (λ e, e.1) <$> filter (λ e, Qeq_bool e.2 0 = false) (tocoo m).


(** A spy plot described by the structure of a matrix alone: its shape
    and the coordinates of its non-zero entries.  Black squares of size
    4, one per coordinate, x the column and y the row, on a 6 by 6 inch
    figure without axes, the limits spanning the shape. *)
Definition plot_of (nr nc : nat) (coords : list (nat * nat)) : figure :=
  Figure (6, 6)%Q "black" 2%Q
    (Some (Axes [Line2D (snd <$> coords) (fst <$> coords) "None" "s" 4%Q "black"]
                (- half, inject_Z (Z.of_nat nc) - half)%Q
                (inject_Z (Z.of_nat nr) - half, - half)%Q
                "equal" false)).


(** The kinds of error of the specification, read off the traceback:
    the call that raised decides the kind. *)
Inductive error_kind := MissingInputError | DecodeError | RenderError | IOError.

Definition kind_of (f : failure) : error_kind :=
  match f.1 with
  | Loading => MissingInputError
  | Decoding => DecodeError
  | Rendering => RenderError
  | Saving => IOError
  end.

(** The file an exception names (the [filename] of an [OSError]). *)
Definition named_file (f : failure) : option path :=
  match f.2 with
  | FileNotFoundError p | PermissionError p => Some p
  | Raised _ => None
  end.

Section Pipeline.
Context `{Libs}.

(** From the bytes of an input file to the matrix that is drawn. *)
Definition matrix_of (b : bytes) : pyerr + csc :=
  match npy_parse b with
  | inl e => inl e
  | inr obj => to_csc obj
  end.

(** From the bytes of an input file to the bytes of its image. *)
Definition png_of (b : bytes) : pyerr + bytes :=
  match matrix_of b with
  | inl e => inl e
  | inr mat => print_png (spy_figure mat) 300%Q true
  end.

(** The run over [names] raises [f] in the iteration of [n], the
    names before it having completed. *)
Definition fails_at (names : list string) (src dst : path) (s : pystate)
    (n : string) (f : failure) : Prop :=
  ∃ pre post s1,
    names = pre ++ n :: post
    ∧ render_all pre src dst s = (inr tt, s1)
    ∧ (render_one src dst n s1).1 = inl f.

End Pipeline.

Section Readiness.
Context `{Libs}.

(** The input of [name] is on the disk [d], decodes and renders. *)
Definition ready (src : path) (d : filesystem) (name : string) : bool :=
  match files d !! src_path src name with
  | Some b => match png_of b with inr _ => true | inl _ => false end
  | None => false
  end.

End Readiness.

(** ** A small instance of the libraries, to run the script on

    A toy decoder: the magic byte [x93], the numbers of rows and of
    columns, then the entries row by row, one byte each.  Anything else
    is refused with numpy's message for a file that is neither an array
    nor an archive.  The conversion drops the zeros, as
    [csc_array(dense)] does; the rasteriser lists the points. *)
Module Demo.

Definition byte_Q (b : Byte.byte) : Q := inject_Z (Z.of_nat (Byte.to_nat b)).
Definition nat_byte (n : nat) : Byte.byte := default Byte.x00 (Byte.of_nat n).

Fixpoint rows_of (nr nc : nat) (l : bytes) : list (list Q) :=
  match nr with
  | 0 => []
  | S r => (byte_Q <$> take nc l) :: rows_of r nc (drop nc l)
  end.

Definition not_an_array : pyerr :=
  PyErr "ValueError" "Cannot load file containing pickled data when allow_pickle=False".

Definition parse (b : bytes) : pyerr + (nat * list (list Q)) :=
  match b with
  | Byte.x93 :: nr :: nc :: rest =>
      if decide (length rest = Byte.to_nat nr * Byte.to_nat nc)
      then inr (Byte.to_nat nc, rows_of (Byte.to_nat nr) (Byte.to_nat nc) rest)
      else inl (PyErr "ValueError" "cannot reshape array")
  | _ => inl not_an_array
  end.

Definition column (j : nat) (rows : list (list Q)) : list (nat * Q) :=
  concat (imap (λ i row,
    match row !! j with
    | Some v => if Qeq_bool v 0 then [] else [(i, v)]
    | None => []
    end) rows).

Definition dense_to_csc (a : nat * list (list Q)) : pyerr + csc :=
  inr (Csc (length a.2) ((λ j, column j a.2) <$> seq 0 a.1)).

Definition draw (f : figure) (dpi : Q) (tight : bool) : pyerr + bytes :=
  inr ([Byte.x89; Byte.x50; Byte.x4e; Byte.x47]
       ++ (p ← points f; [nat_byte p.1; nat_byte p.2])).

#[export] Instance libs : Libs := {|
  pyobj := nat * list (list Q);
  npy_parse := parse;
  to_csc := dense_to_csc;
  print_png := draw
|}.

(** A 2 by 2 identity matrix, and a file that is not an array. *)
Definition eye2 : bytes := [Byte.x93; Byte.x02; Byte.x02; Byte.x01; Byte.x00; Byte.x00; Byte.x01].
Definition junk : bytes := [Byte.x00; Byte.x01].

(** The script at /repo/joss/temp/temp.py. *)
Definition file : path := (true, ["repo"; "joss"; "temp"; "temp.py"]).
Definition src : path := (true, ["repo"; "joss"; "temp"; "npz"]).
Definition dst : path := (true, ["repo"; "joss"; "graphics"]).

Definition inputs : gmap path bytes :=
  <[src_path src "A" := eye2]>
    (<[src_path src "A_min" := eye2]>
       (<[src_path src "A_rec" := eye2]> ∅)).

(** All three inputs present, [graphics] writable. *)
Definition disk : filesystem := FileSystem inputs {[ dst := true ]}.
(** The same without the directory [graphics]. *)
Definition disk_no_graphics : filesystem := FileSystem inputs ∅.
(** The second input missing. *)
Definition disk_missing : filesystem :=
  FileSystem (delete (src_path src "A_min") inputs) {[ dst := true ]}.
(** The first input undecodable. *)
Definition disk_junk (name : string) : filesystem :=
  FileSystem (<[src_path src name := junk]> inputs) {[ dst := true ]}.


Definition boot (d : filesystem) : pystate := PyState d [] [].

(** The state in which a run over [names] on the disk [d] ends. *)
Definition after (names : list string) (d : filesystem) : pystate :=
  (render_all names src dst (boot d)).2.

(** The 1 by 1 matrix holding 1. *)
Definition one : csc := Csc 1 [[(0, 1%Q)]].

End Demo.

(** ** Proof automation *)

(** Closes the cases of the classification once the failure is known and
    what the input decodes to is in the context. *)
Ltac leaf :=
  simplify_eq; unfold kind_of, named_file; simpl;
  split_and!;
  try (intros; simplify_eq; simpl; first [done | congruence | split; congruence]).

(** * Properties *)

(** ** Strings and paths *)

Lemma list_ascii_app (s t : string) :
  String.list_ascii_of_string (s +:+ t) = String.list_ascii_of_string s ++ String.list_ascii_of_string t.
Proof. induction s as [|c s IH]; simpl; [done | by rewrite IH]. Qed.

Lemma string_app_inj_r (t s1 s2 : string) : s1 +:+ t = s2 +:+ t → s1 = s2.
Proof.
  intros E. apply (f_equal String.list_ascii_of_string) in E.
  rewrite !list_ascii_app in E. apply app_inv_tail in E.
  rewrite <- (String.string_of_list_ascii_of_string s1), <- (String.string_of_list_ascii_of_string s2).
  by rewrite E.
Qed.

Lemma png_is_not_npz (n m : string) : n +:+ ".png" ≠ m +:+ ".npz".
Proof.
  intros E. apply (f_equal String.list_ascii_of_string) in E.
  rewrite !list_ascii_app in E.
  apply app_inj_2 in E as [_ E]; [discriminate E | done].
Qed.

Lemma parent_joinpath (p : path) (s : string) : Pathlib.parent (p / s)%path = p.
Proof. destruct p as [a l]. unfold Pathlib.parent; simpl. by rewrite removelast_last. Qed.

Lemma joinpath_inj (p q : path) (s t : string) : (p / s)%path = (q / t)%path → p = q ∧ s = t.
Proof.
  destruct p as [a l], q as [b k]. unfold Pathlib.joinpath; simpl.
  intros [= -> E]. apply app_inj_tail in E as [-> ->]. done.
Qed.

Lemma dst_path_inj (dst : path) (n m : string) : dst_path dst n = dst_path dst m → n = m.
Proof. intros E. apply joinpath_inj in E as [_ E]. by apply string_app_inj_r in E. Qed.

Lemma src_path_inj (src : path) (n m : string) : src_path src n = src_path src m → n = m.
Proof. intros E. apply joinpath_inj in E as [_ E]. by apply string_app_inj_r in E. Qed.

Lemma dst_is_not_src (src dst : path) (n m : string) : dst_path dst n ≠ src_path src m.
Proof. intros E. apply joinpath_inj in E as [_ E]. by apply png_is_not_npz in E. Qed.

Lemma parent_dst_path (dst : path) (n : string) : Pathlib.parent (dst_path dst n) = dst.
Proof. apply parent_joinpath. Qed.

(** ** One iteration, case by case *)

Section Iteration.
Context `{Libs}.
Variables src dst : path.

(** The outcome of the body of the loop, by the first call that
    raises.  A failure leaves the state as the calls completed before
    it made it. *)
Lemma render_one_eq (name : string) (s : pystate) :
  render_one src dst name s =
  match files (fs s) !! src_path src name with
  | None => (inl (Loading, FileNotFoundError (src_path src name)), s)
  | Some b =>
    match npy_parse b with
    | inl e => (inl (Decoding, Raised e), s)
    | inr obj =>
      match to_csc obj with
      | inl e => (inl (Decoding, Raised e),
                  PyState (fs s) (figs s) (trace s ++ [EvLoad (src_path src name)]))
      | inr mat =>
        let s1 := PyState (fs s) (spy_figure mat :: figs s)
                          (trace s ++ before_save src name) in
        match print_png (spy_figure mat) 300%Q true with
        | inl e => (inl (Rendering, Raised e), s1)
        | inr png =>
          match dirs (fs s) !! dst with
          | None => (inl (Saving, FileNotFoundError (dst_path dst name)), s1)
          | Some false => (inl (Saving, PermissionError (dst_path dst name)), s1)
          | Some true =>
              (inr tt,
               PyState (FileSystem (<[dst_path dst name := png]> (files (fs s))) (dirs (fs s)))
                       (figs s) (trace s ++ cycle src dst name))
          end
        end
      end
    end
  end.
Proof.
  destruct s as [[fl ds] fg tr].
  unfold render_one, np_load, sp_csc_array, plt_figure, plt_spy, plt_axis_off,
    plt_savefig, plt_close, gcf, set_gcf, fs_read, fs_write, bind, log,
    cycle, before_save; simpl.
  destruct (fl !! src_path src name) as [b|]; simpl; [|done].
  destruct (npy_parse b) as [e|obj]; simpl; [done|].
  destruct (to_csc obj) as [e|mat]; simpl; [done|].
  fold (spy_figure mat).
  destruct (print_png (spy_figure mat) 300%Q true) as [e|png]; simpl.
  { by rewrite <- !app_assoc. }
  rewrite parent_dst_path.
  destruct (ds !! dst) as [[]|]; simpl; by rewrite <- !app_assoc.
Qed.

End Iteration.

(** ** The loop *)

Section Loop.
Context `{Libs}.
Variables src dst : path.

Lemma render_all_cons (n : string) (ns : list string) (s : pystate) :
  render_all (n :: ns) src dst s =
  match render_one src dst n s with
  | (inl f, s1) => (inl f, s1)
  | (inr _, s1) => render_all ns src dst s1
  end.
Proof. reflexivity. Qed.

Lemma render_all_app (l1 l2 : list string) (s : pystate) :
  render_all (l1 ++ l2) src dst s =
  match render_all l1 src dst s with
  | (inl f, s1) => (inl f, s1)
  | (inr _, s1) => render_all l2 src dst s1
  end.
Proof.
  revert s. induction l1 as [|n l1 IH]; intros s; [done|].
  rewrite <- app_comm_cons, !render_all_cons.
  destruct (render_one src dst n s) as [[f|[]] s1]; [done | apply IH].
Qed.

(** A completed iteration: what was read, what was written. *)
Lemma render_one_ok (n : string) (s s' : pystate) :
  render_one src dst n s = (inr tt, s') →
  ∃ b obj mat png,
    files (fs s) !! src_path src n = Some b
    ∧ npy_parse b = inr obj ∧ to_csc obj = inr mat
    ∧ print_png (spy_figure mat) 300%Q true = inr png
    ∧ dirs (fs s) !! dst = Some true
    ∧ s' = PyState (FileSystem (<[dst_path dst n := png]> (files (fs s))) (dirs (fs s)))
                   (figs s) (trace s ++ cycle src dst n).
Proof.
  rewrite render_one_eq. cbv zeta. intros E.
  repeat case_match; simplify_eq. by eexists _, _, _, _.
Qed.

Lemma png_of_ok (b : bytes) (obj : pyobj) (mat : csc) (png : bytes) :
  npy_parse b = inr obj → to_csc obj = inr mat →
  print_png (spy_figure mat) 300%Q true = inr png →
  matrix_of b = inr mat ∧ png_of b = inr png.
Proof. unfold png_of, matrix_of. by intros -> -> ->. Qed.

(** An aborted iteration: the disk is as it was, and the calls that
    completed stop short of [savefig]. *)
Lemma render_one_fail (n : string) (s s' : pystate) (f : failure) :
  render_one src dst n s = (inl f, s') →
  fs s' = fs s
  ∧ ∃ t, t `prefix_of` before_save src n ∧ trace s' = trace s ++ t.
Proof.
  rewrite render_one_eq. cbv zeta. intros E. destruct s as [d fg tr].
  repeat case_match; simplify_eq; simpl; (split; [done|]).
  all: first
    [ exists []; split; [apply prefix_nil | by rewrite app_nil_r]
    | exists [EvLoad (src_path src n)]; split; [by eexists | done]
    | exists (before_save src n); split; [reflexivity | done] ].
Qed.

(** A run that completes is the iterations one after the other. *)
Lemma render_all_ok (names : list string) (s s' : pystate) :
  render_all names src dst s = (inr tt, s') →
  trace s' = trace s ++ (names ≫= cycle src dst)
  ∧ figs s' = figs s
  ∧ dirs (fs s') = dirs (fs s)
  ∧ (∀ p, p ∉ (dst_path dst <$> names) → files (fs s') !! p = files (fs s) !! p)
  ∧ (∀ n, n ∈ names →
       ∃ b png, files (fs s) !! src_path src n = Some b ∧ png_of b = inr png
                ∧ dirs (fs s) !! dst = Some true
                ∧ files (fs s') !! dst_path dst n = Some png).
Proof.
  revert s. induction names as [|n ns IH]; intros s.
  { intros [= <-]. rewrite app_nil_r. split_and!; try done. by intros n ?%elem_of_nil. }
  rewrite render_all_cons.
  destruct (render_one src dst n s) as [[f|[]] s1] eqn:E1; [done|].
  intros E2. apply render_one_ok in E1 as (b & obj & mat & png & Hb & Ho & Hm & Hp & Hd & ->).
  destruct (png_of_ok _ _ _ _ Ho Hm Hp) as [_ Hpng].
  destruct (IH _ E2) as (Ht & Hf & Hds & Hother & Hout); simpl in *.
  split_and!.
  - rewrite Ht, <- app_assoc. done.
  - done.
  - done.
  - intros p [Hne Hp']%not_elem_of_cons.
    rewrite (Hother p Hp'). by rewrite lookup_insert_ne.
  - intros m Hm'. destruct (decide (m ∈ ns)) as [Hin|Hnin].
    + destruct (Hout m Hin) as (b' & png' & Hb' & Hpng' & _ & Hres).
      rewrite lookup_insert_ne in Hb' by apply dst_is_not_src.
      by exists b', png'.
    + apply elem_of_cons in Hm' as [->|]; [|done].
      exists b, png. split_and!; [done..|].
      rewrite Hother; [apply lookup_insert_eq|].
      intros (m & E & Hin)%list_elem_of_fmap. apply dst_path_inj in E as <-. done.
Qed.

(** A run that aborts does so in the first iteration that fails. *)
Lemma render_all_fail (names : list string) (s s' : pystate) (f : failure) :
  render_all names src dst s = (inl f, s') →
  ∃ pre n post s1,
    names = pre ++ n :: post
    ∧ render_all pre src dst s = (inr tt, s1)
    ∧ render_one src dst n s1 = (inl f, s').
Proof.
  revert s. induction names as [|n ns IH]; intros s; [done|].
  rewrite render_all_cons.
  destruct (render_one src dst n s) as [[f1|[]] s1] eqn:E1.
  - intros [= -> ->]. by exists [], n, ns, s.
  - intros (pre & m & post & s2 & -> & Hpre & Hm)%IH.
    exists (n :: pre), m, post, s2. split_and!; [done| |done].
    by rewrite render_all_cons, E1.
Qed.

Lemma saved_app (t1 t2 : list event) : saved (t1 ++ t2) = saved t1 ++ saved t2.
Proof. apply omap_app. Qed.

Lemma saved_cycles (names : list string) :
  saved (names ≫= cycle src dst) = dst_path dst <$> names.
Proof.
  induction names as [|n ns IH]; [done|].
  change ((n :: ns) ≫= cycle src dst) with (cycle src dst n ++ (ns ≫= cycle src dst)).
  by rewrite saved_app, IH.
Qed.

Lemma saved_before_save (n : string) (t : list event) :
  t `prefix_of` before_save src n → saved t = [].
Proof.
  intros [k E]. unfold before_save in E.
  do 5 (destruct t as [|? t]; [done|]; injection E as <- E). 
  by destruct t.
Qed.

End Loop.

(** ** Outputs, failures and order of a run *)

Section Run.
Context `{Libs}.
Variables src dst : path.

(** C1. A run in which every name loads, decodes, renders and saves
    performs exactly one save per name, in order, each to
    [dst/<name>.png]; afterwards each of these files holds the image
    of its own input, the files on disk are the earlier ones and
    these, every other path holds what it held, and distinct names
    have distinct files (three for the names of the script). *)
Theorem one_png_per_name (names : list string) (s s' : pystate) :
  render_all names src dst s = (inr tt, s') →
  saved (trace s') = saved (trace s) ++ (dst_path dst <$> names)
  ∧ (∀ n, n ∈ names →
       ∃ b png, files (fs s) !! src_path src n = Some b ∧ png_of b = inr png
                ∧ files (fs s') !! dst_path dst n = Some png)
  ∧ dom (files (fs s')) = dom (files (fs s)) ∪ list_to_set (dst_path dst <$> names)
  ∧ (∀ p, p ∉ (dst_path dst <$> names) → files (fs s') !! p = files (fs s) !! p)
  ∧ (NoDup names → NoDup (dst_path dst <$> names))
  ∧ (names = NAMES → length (dst_path dst <$> names) = 3
                     ∧ NoDup (dst_path dst <$> names)).
Proof.
  intros E. destruct (render_all_ok src dst _ _ _ E) as (Ht & _ & _ & Hother & Hout).
  assert (Hinj : NoDup names → NoDup (dst_path dst <$> names)).
  { apply NoDup_fmap_2. intros n m. apply dst_path_inj. }
  split_and!.
  - by rewrite Ht, saved_app, saved_cycles.
  - intros n Hn. destruct (Hout n Hn) as (b & png & ? & ? & _ & ?). by exists b, png.
  - apply set_eq. intros p.
    rewrite elem_of_union, elem_of_list_to_set, !elem_of_dom.
    destruct (decide (p ∈ dst_path dst <$> names)) as [Hin|Hnin].
    + apply list_elem_of_fmap in Hin as (n & -> & Hn).
      destruct (Hout n Hn) as (b & png & _ & _ & _ & ->).
      split; [intros _; right; apply list_elem_of_fmap; eauto | eauto].
    + rewrite (Hother p Hnin). tauto.
  - done.
  - done.
  - intros ->. split; [done|]. apply Hinj.
    apply (bool_decide_unpack _). by vm_compute.
Qed.

(** C2. When the names before [n] complete and the iteration of [n]
    raises, the run ends with that very exception, whatever names
    follow.  The disk is the one the earlier names left: their files
    are in place and nothing was written for [n].  The calls made for
    [n] are an initial part of one iteration, short of the save: no
    call is made twice. *)
Theorem abort_at_first_failure (pre post : list string) (n : string)
    (s s1 s2 : pystate) (f : failure) :
  render_all pre src dst s = (inr tt, s1) →
  render_one src dst n s1 = (inl f, s2) →
  render_all (pre ++ n :: post) src dst s = (inl f, s2)
  ∧ fs s2 = fs s1
  ∧ saved (trace s2) = saved (trace s) ++ (dst_path dst <$> pre)
  ∧ (∃ t, t `prefix_of` before_save src n
          ∧ trace s2 = trace s ++ (pre ≫= cycle src dst) ++ t)
  ∧ (∀ m, m ∈ pre →
       ∃ b png, files (fs s) !! src_path src m = Some b ∧ png_of b = inr png
                ∧ files (fs s2) !! dst_path dst m = Some png)
  ∧ (n ∉ pre → files (fs s2) !! dst_path dst n = files (fs s) !! dst_path dst n).
Proof.
  intros Epre En.
  destruct (render_all_ok src dst _ _ _ Epre) as (Ht & _ & _ & Hother & Hout).
  destruct (render_one_fail src dst _ _ _ _ En) as (Hfs & t & Hpre & Htr).
  split_and!.
  - by rewrite render_all_app, Epre, render_all_cons, En.
  - done.
  - rewrite Htr, Ht, !saved_app, saved_cycles, (saved_before_save src n t Hpre).
    by rewrite app_nil_r.
  - exists t. split; [done|]. by rewrite Htr, Ht, <- app_assoc.
  - intros m Hm. destruct (Hout m Hm) as (b & png & ? & ? & _ & ?).
    exists b, png. by rewrite Hfs.
  - intros Hn. rewrite Hfs. apply Hother.
    intros (m & E & Hin)%list_elem_of_fmap. apply dst_path_inj in E as <-. done.
Qed.

(** C5. The names are processed one after the other in the order of
    the list: the calls of a completed run are the iterations of the
    names, concatenated in that order, and wherever the list is cut
    before a name [n], the names before it have run to completion
    (their saves done, their files on disk, no figure of theirs left
    open) in the state from which the iteration of [n] starts. *)
Theorem names_in_sequence (names : list string) (s s' : pystate) :
  render_all names src dst s = (inr tt, s') →
  trace s' = trace s ++ (names ≫= cycle src dst)
  ∧ figs s' = figs s
  ∧ ∀ pre n post, names = pre ++ n :: post →
      ∃ s1 s2,
        render_all pre src dst s = (inr tt, s1)
        ∧ render_one src dst n s1 = (inr tt, s2)
        ∧ render_all post src dst s2 = (inr tt, s')
        ∧ trace s1 = trace s ++ (pre ≫= cycle src dst)
        ∧ trace s2 = trace s1 ++ cycle src dst n
        ∧ figs s1 = figs s ∧ figs s2 = figs s
        ∧ (∀ m, m ∈ pre → is_Some (files (fs s1) !! dst_path dst m)).
Proof.
  intros E. destruct (render_all_ok src dst _ _ _ E) as (Ht & Hf & _).
  split_and!; [done..|].
  intros pre n post ->. rewrite render_all_app in E.
  destruct (render_all pre src dst s) as [[f|[]] s1] eqn:Epre; [done|].
  rewrite render_all_cons in E.
  destruct (render_one src dst n s1) as [[f|[]] s2] eqn:En; [done|].
  destruct (render_all_ok src dst _ _ _ Epre) as (Ht1 & Hf1 & _ & _ & Hout).
  destruct (render_one_ok src dst _ _ _ En) as (b & obj & mat & png & _ & _ & _ & _ & _ & ->).
  eexists s1, _. split_and!; try done.
  intros m Hm. destruct (Hout m Hm) as (? & png' & _ & _ & _ & ->). by exists png'.
Qed.

End Run.

(** ** What [spy] draws *)

Lemma Qgtb_lt (a b : Q) : Qgtb a b = true ↔ (b < a)%Q.
Proof.
  unfold Qgtb. rewrite negb_true_iff, <- not_true_iff_false, Qle_bool_iff.
  split; [apply Qnot_le_lt | apply Qlt_not_le].
Qed.

Lemma Qabs_pos_nonzero (v : Q) : (0 < Qabs v)%Q ↔ ¬ (v == 0)%Q.
Proof.
  split.
  - intros Hlt E. rewrite E in Hlt. by apply Qlt_irrefl in Hlt.
  - intros Hne. apply Qnot_le_lt. intros Hle.
    apply Qabs_Qle_condition in Hle as [Hlo Hhi].
    apply Hne. by apply Qle_antisym.
Qed.

(** With precision 0, an entry is kept exactly when its value is not
    zero. *)
Lemma spy_keep_zero (e : nat * nat * Q) :
  spy_keep (Threshold 0%Q) e = true ↔ Qeq_bool e.2 0 = false.
Proof.
  simpl. rewrite Qgtb_lt, Qabs_pos_nonzero, <- not_true_iff_false, Qeq_bool_iff. done.
Qed.

Lemma zip_fmap_same {A B C} (f : A → B) (g : A → C) (l : list A) :
  zip (f <$> l) (g <$> l) = (λ a, (f a, g a)) <$> l.
Proof. induction l as [|a l IH]; [done|]. simpl. f_equal. exact IH. Qed.

Lemma spy_entries_nonzero (mat : csc) :
  (λ e, e.1) <$> spy_entries (Threshold 0%Q) mat = nonzero_coords mat.
Proof.
  unfold spy_entries, nonzero_coords. f_equal.
  apply list_filter_iff. intros e. apply spy_keep_zero.
Qed.

(** The figure of lines 13 to 15 is the plot of the structure. *)
Lemma spy_figure_plot (mat : csc) :
  spy_figure mat = plot_of (nrows mat) (ncols mat) (nonzero_coords mat).
Proof.
  unfold spy_figure, plot_of, with_axes, axes_spy, axes_axis_off, gca; simpl.
  rewrite <- spy_entries_nonzero, <- !list_fmap_compose. done.
Qed.

Lemma points_plot_of (nr nc : nat) (coords : list (nat * nat)) :
  points (plot_of nr nc coords) = (λ c, (c.2, c.1)) <$> coords.
Proof.
  change (points (plot_of nr nc coords))
    with (zip (snd <$> coords) (fst <$> coords) ++ []).
  rewrite app_nil_r. exact (zip_fmap_same snd fst coords).
Qed.

Lemma elem_of_nonzero_coords (mat : csc) (i j : nat) :
  (i, j) ∈ nonzero_coords mat ↔ ∃ v, (i, j, v) ∈ tocoo mat ∧ ¬ (v == 0)%Q.
Proof.
  unfold nonzero_coords. rewrite list_elem_of_fmap. split.
  - intros ([[i' j'] v] & [= <- <-] & [Hv Hin]%list_elem_of_filter).
    exists v. split; [done|]. simpl in Hv.
    by rewrite <- Qeq_bool_iff, not_true_iff_false.
  - intros (v & Hin & Hv). exists (i, j, v). split; [done|].
    apply list_elem_of_filter. split; [|done]. simpl.
    by rewrite <- not_true_iff_false, Qeq_bool_iff.
Qed.


(** [tocoo] in scipy's terms: the rows are [indices], the values are
    [data], and [indptr] has one offset per column and a last one. *)
Lemma tocoo_rows_data (mat : csc) :
  (λ e, e.1.1) <$> tocoo mat = indices mat
  ∧ (λ e, e.2) <$> tocoo mat = data mat
  ∧ length (indptr mat) = S (ncols mat).
Proof.
  unfold tocoo, indices, data, indptr, ncols.
  generalize 0 at 1 2 as j. generalize 0 as k.
  induction (columns mat) as [|c cs IH]; intros k j; [done|].
  destruct (IH (k + length c) (S j)) as (Hr & Hd & Hl).
  simpl. rewrite !fmap_app, <- !list_fmap_compose, Hr, Hd, Hl. done.
Qed.

(** ** Iterations from the state of the disk *)

Section Outcome.
Context `{Libs}.
Variables src dst : path.

Lemma png_of_inv (b : bytes) (png : bytes) :
  png_of b = inr png →
  ∃ obj mat, npy_parse b = inr obj ∧ to_csc obj = inr mat
             ∧ print_png (spy_figure mat) 300%Q true = inr png.
Proof.
  unfold png_of, matrix_of.
  destruct (npy_parse b) as [|obj] eqn:Ho; [done|].
  destruct (to_csc obj) as [|mat] eqn:Hm; [done|]. intros Hp. by exists obj, mat.
Qed.

Lemma render_one_run (n : string) (s : pystate) (b png : bytes) :
  files (fs s) !! src_path src n = Some b →
  png_of b = inr png →
  dirs (fs s) !! dst = Some true →
  render_one src dst n s =
  (inr tt, PyState (FileSystem (<[dst_path dst n := png]> (files (fs s))) (dirs (fs s)))
                   (figs s) (trace s ++ cycle src dst n)).
Proof.
  intros Hb (obj & mat & Ho & Hm & Hp)%png_of_inv Hd.
  by rewrite render_one_eq, Hb, Ho, Hm, Hp, Hd.
Qed.

Lemma render_one_missing (n : string) (s : pystate) :
  files (fs s) !! src_path src n = None →
  render_one src dst n s = (inl (Loading, FileNotFoundError (src_path src n)), s).
Proof. intros Hb. by rewrite render_one_eq, Hb. Qed.

Lemma render_one_undecodable (n : string) (s : pystate) (b : bytes) (e : pyerr) :
  files (fs s) !! src_path src n = Some b →
  matrix_of b = inl e →
  (render_one src dst n s).1 = inl (Decoding, Raised e).
Proof.
  intros Hb. unfold matrix_of. rewrite render_one_eq, Hb.
  destruct (npy_parse b) as [e'|obj]; [by intros [= ->]|].
  by intros ->.
Qed.

Lemma render_one_unwritable (n : string) (s : pystate) (b png : bytes) :
  files (fs s) !! src_path src n = Some b →
  png_of b = inr png →
  dirs (fs s) !! dst ≠ Some true →
  ∃ s', render_one src dst n s =
        (inl (Saving, match dirs (fs s) !! dst with
                      | None => FileNotFoundError (dst_path dst n)
                      | Some _ => PermissionError (dst_path dst n)
                      end), s')
        ∧ fs s' = fs s ∧ trace s' = trace s ++ before_save src n.
Proof.
  intros Hb (obj & mat & Ho & Hm & Hp)%png_of_inv Hd.
  rewrite render_one_eq, Hb, Ho, Hm, Hp. cbv zeta.
  destruct (dirs (fs s) !! dst) as [[]|]; [done|by eexists..].
Qed.


End Outcome.





(** ** Any run, completed or not *)

Section AnyRun.
Context `{Libs}.
Variables src dst : path.

Lemma loaded_app (t1 t2 : list event) : loaded (t1 ++ t2) = loaded t1 ++ loaded t2.
Proof. apply omap_app. Qed.

Lemma loaded_cycles (names : list string) :
  loaded (names ≫= cycle src dst) = src_path src <$> names.
Proof.
  induction names as [|n ns IH]; [done|].
  change ((n :: ns) ≫= cycle src dst) with (cycle src dst n ++ (ns ≫= cycle src dst)).
  by rewrite loaded_app, IH.
Qed.

Lemma loaded_before_save (n : string) (t : list event) :
  t `prefix_of` before_save src n → loaded t `prefix_of` [src_path src n].
Proof. intros [k E]. exists (loaded k). by rewrite <- loaded_app, <- E. Qed.

(** Whatever the outcome, the directories are those of the start, and
    the loads and the saves are initial parts of the lists of input
    and output paths of the names. *)
Lemma render_all_any (names : list string) (s s' : pystate) (r : failure + unit) :
  render_all names src dst s = (r, s') →
  dirs (fs s') = dirs (fs s)
  ∧ ∃ l1 l2,
      loaded (trace s') = loaded (trace s) ++ l1
      ∧ l1 `prefix_of` (src_path src <$> names)
      ∧ saved (trace s') = saved (trace s) ++ l2
      ∧ l2 `prefix_of` (dst_path dst <$> names).
Proof.
  destruct r as [f|[]]; intros E.
  - apply render_all_fail in E as (pre & n & post & s1 & -> & Epre & En).
    destruct (render_all_ok src dst _ _ _ Epre) as (Ht & _ & Hd & _).
    destruct (render_one_fail src dst _ _ _ _ En) as (Hfs & t & Hpre & Htr).
    split; [by rewrite Hfs|].
    exists ((src_path src <$> pre) ++ loaded t), (dst_path dst <$> pre).
    rewrite Htr, Ht, !loaded_app, !saved_app, loaded_cycles, saved_cycles.
    rewrite (saved_before_save src n t Hpre), app_nil_r, !fmap_app, fmap_cons.
    split_and!; [by rewrite app_assoc| |done|by eexists].
    apply prefix_app. etrans; [by apply loaded_before_save|]. by eexists.
  - destruct (render_all_ok src dst _ _ _ E) as (Ht & _ & Hd & _).
    split; [done|]. exists (src_path src <$> names), (dst_path dst <$> names).
    by rewrite Ht, loaded_app, saved_app, loaded_cycles, saved_cycles.
Qed.

End AnyRun.


(** C10. The script never creates a directory: the directories after
    any run are those before it.  If the destination directory does not
    exist, the run raises, no file is written and no save completes;
    and when the first input loads, decodes and renders, the exception
    is the [FileNotFoundError] of the first save, raised after the
    load, the conversion and the drawing calls of the first name. *)
Theorem destination_is_never_created :
  ∀ (L : Libs) file s r s',
    script file s = (r, s') →
    dirs (fs s') = dirs (fs s)
    ∧ (dirs (fs s) !! DST_DIR file = None →
         (∃ f, r = inl f)
         ∧ files (fs s') = files (fs s)
         ∧ saved (trace s') = saved (trace s)
         ∧ (∀ b png,
              files (fs s) !! src_path (SRC_DIR file) "A" = Some b →
              png_of b = inr png →
              r = inl (Saving, FileNotFoundError (dst_path (DST_DIR file) "A"))
              ∧ trace s' = trace s ++ before_save (SRC_DIR file) "A")).
Proof.
  intros L file s r s' E. split.
  { by destruct (render_all_any _ _ _ _ _ _ E) as [? _]. }
  intros Hnone. unfold script in E. destruct r as [f|[]].
  2:{ destruct (render_all_ok _ _ _ _ _ E) as (_ & _ & _ & _ & Hout).
      destruct (Hout "A") as (? & ? & _ & _ & Hd & _); [by left|]. congruence. }
  apply render_all_fail in E as (pre & n & post & s1 & Hnames & Epre & En).
  destruct pre as [|m pre].
  2:{ destruct (render_all_ok _ _ _ _ _ Epre) as (_ & _ & _ & _ & Hout).
      destruct (Hout m) as (? & ? & _ & _ & Hd & _); [by left|]. congruence. }
  injection Epre as <-. injection Hnames as <- _.
  destruct (render_one_fail _ _ _ _ _ _ En) as (Hfs & t & Hpre & Htr).
  split_and!.
  - by exists f.
  - by rewrite Hfs.
  - by rewrite Htr, saved_app, (saved_before_save _ _ t Hpre), app_nil_r.
  - intros b png Hb Hpng.
    destruct (render_one_unwritable (SRC_DIR file) (DST_DIR file) "A" s b png Hb Hpng)
      as (s2 & E2 & _ & Htr2); [congruence|].
    rewrite Hnone in E2. rewrite En in E2. by injection E2 as -> ->.
Qed.

(** ** The kinds of failure and what the diagnostic names *)

(** C6, as the code has it.  A run that raises does so in the iteration
    of one name, and the kind of the failure follows from the disk: an
    absent source file gives a [MissingInputError] that names this file;
    a source file that does not decode gives a [DecodeError] that is the
    exception of the decoder, as raised; a destination that is not a
    writable directory, for an input that decodes and renders, gives an
    [IOError] that names the output file.  Whenever the failure names an
    input or output file of the run, it is the file of the failing
    name. *)
Theorem failure_kinds_and_diagnostics :
  ∀ (L : Libs) names src dst s f s',
    render_all names src dst s = (inl f, s') →
    ∃ n, fails_at names src dst s n f
      ∧ (files (fs s) !! src_path src n = None →
           kind_of f = MissingInputError ∧ f.2 = FileNotFoundError (src_path src n))
      ∧ (∀ b e, files (fs s) !! src_path src n = Some b → matrix_of b = inl e →
           kind_of f = DecodeError ∧ f.2 = Raised e)
      ∧ (∀ b png, files (fs s) !! src_path src n = Some b → png_of b = inr png →
           dirs (fs s) !! dst ≠ Some true →
           kind_of f = IOError ∧ named_file f = Some (dst_path dst n))
      ∧ (∀ m, named_file f = Some (src_path src m) ∨ named_file f = Some (dst_path dst m) →
           m = n).
Proof.
  intros L names src dst s f s' E.
  apply render_all_fail in E as (pre & n & post & s1 & -> & Epre & En).
  destruct (render_all_ok src dst _ _ _ Epre) as (_ & _ & Hd & Hother & _).
  assert (Hsrc : files (fs s1) !! src_path src n = files (fs s) !! src_path src n).
  { apply Hother. intros (m & Em & _)%list_elem_of_fmap.
    symmetry in Em. by apply dst_is_not_src in Em. }
  exists n. split.
  { exists pre, post, s1. by rewrite En. }
  rewrite render_one_eq in En. cbv zeta in En. rewrite Hsrc, Hd in En.
  assert (Hnames : ∀ p, (p = src_path src n ∨ p = dst_path dst n) →
            ∀ m, Some p = Some (src_path src m) ∨ Some p = Some (dst_path dst m) → m = n).
  { intros p [->| ->] m [Em|Em]; apply (inj Some) in Em;
      first [ by apply src_path_inj in Em
            | by apply dst_path_inj in Em
            | by apply dst_is_not_src in Em
            | symmetry in Em; by apply dst_is_not_src in Em ]. }
  destruct (files (fs s) !! src_path src n) as [b0|] eqn:Hb0; [|leaf; eauto].
  destruct (npy_parse b0) as [e0|obj] eqn:Ho.
  { assert (matrix_of b0 = inl e0) by (unfold matrix_of; by rewrite Ho).
    assert (png_of b0 = inl e0) by (unfold png_of; by rewrite H).
    leaf; by intros m [|]. }
  destruct (to_csc obj) as [e0|mat] eqn:Hm.
  { assert (matrix_of b0 = inl e0) by (unfold matrix_of; by rewrite Ho, Hm).
    assert (png_of b0 = inl e0) by (unfold png_of; by rewrite H).
    leaf; by intros m [|]. }
  assert (matrix_of b0 = inr mat) by (unfold matrix_of; by rewrite Ho, Hm).
  destruct (print_png (spy_figure mat) 300%Q true) as [e0|png] eqn:Hp.
  { assert (png_of b0 = inl e0) by (unfold png_of; by rewrite H, Hp).
    leaf; by intros m [|]. }
  assert (png_of b0 = inr png) by (unfold png_of; by rewrite H, Hp).
  destruct (dirs (fs s) !! dst) as [[]|] eqn:Hdst; [done|leaf; eauto..].
Qed.

(** C6, as stated, fails: no reading of the diagnostic gives the failing
    name.  The script run on a disk where [A.npz] does not decode and
    on a disk where [A_min.npz] does not decode ends with the same
    exception, raised in the iteration of ["A"] in one run and of
    ["A_min"] in the other. *)
Lemma decode_error_names_no_file :
  ¬ ∃ name_of : failure → string,
      ∀ (L : Libs) names src dst s n f, fails_at names src dst s n f → name_of f = n.
Proof.
  intros [name_of Hid].
  pose (f := (Decoding, Raised Demo.not_an_array)).
  assert (HA : name_of f = "A").
  { apply (Hid Demo.libs NAMES Demo.src Demo.dst (Demo.boot (Demo.disk_junk "A"))).
    exists [], ["A_min"; "A_rec"], (Demo.boot (Demo.disk_junk "A")).
    split_and!; [done|done|by vm_compute]. }
  assert (HB : name_of f = "A_min").
  { apply (Hid Demo.libs NAMES Demo.src Demo.dst (Demo.boot (Demo.disk_junk "A_min"))).
    exists ["A"], ["A_rec"], (Demo.after ["A"] (Demo.disk_junk "A_min")).
    split_and!; [done|by vm_compute|by vm_compute]. }
  rewrite HA in HB. discriminate HB.
Qed.

(** * Further properties of the loop *)

Section Further.
Context `{Libs}.
Variables src dst : path.

Lemma ready_spec (d : filesystem) (n : string) :
  ready src d n = true ↔ ∃ b png, files d !! src_path src n = Some b ∧ png_of b = inr png.
Proof.
  unfold ready. split.
  - destruct (files d !! src_path src n) as [b|]; [|done].
    destruct (png_of b) as [|png] eqn:E; [done|]. by exists b, png.
  - by intros (b & png & -> & ->).
Qed.

(** Saving an image does not change which inputs are ready. *)
Lemma ready_after_save (fl : gmap path bytes) (ds : gmap path bool)
    (n m : string) (png : bytes) :
  ready src (FileSystem (<[dst_path dst n := png]> fl) ds) m = ready src (FileSystem fl ds) m.
Proof. unfold ready; simpl. by rewrite lookup_insert_ne by apply dst_is_not_src. Qed.

Lemma render_all_runs (names : list string) (s : pystate) :
  Forall (λ n, ready src (fs s) n = true) names →
  dirs (fs s) !! dst = Some true →
  ∃ s', render_all names src dst s = (inr tt, s').
Proof.
  revert s. induction names as [|n ns IH]; intros s Hall Hd; [by exists s|].
  apply Forall_cons in Hall as [(b & png & Hb & Hpng)%ready_spec Hns].
  rewrite render_all_cons, (render_one_run src dst n s b png Hb Hpng Hd).
  apply IH; simpl; [|done].
  eapply Forall_impl; [exact Hns|]. intros m Hm. simpl.
  rewrite ready_after_save. by destruct (fs s).
Qed.




(** X4. Whatever the outcome, a run changes no file but the images of
    its names, which lie directly in the destination directory; it
    removes no file, and it leaves every input file as it was, even
    when source and destination are the same directory. *)
Theorem only_outputs_change (names : list string) (s s' : pystate) (r : failure + unit) :
  render_all names src dst s = (r, s') →
  (∀ p, files (fs s') !! p ≠ files (fs s) !! p →
        ∃ n, n ∈ names ∧ p = dst_path dst n ∧ Pathlib.parent p = dst)
  ∧ dom (files (fs s)) ⊆ dom (files (fs s'))
  ∧ (∀ m, files (fs s') !! src_path src m = files (fs s) !! src_path src m).
Proof.
  intros E.
  assert (Hch : ∃ done_, done_ ⊆ names ∧
            (∀ p, p ∉ (dst_path dst <$> done_) → files (fs s') !! p = files (fs s) !! p)
            ∧ (∀ n, n ∈ done_ → is_Some (files (fs s') !! dst_path dst n))).
  { destruct r as [f|[]].
    - apply render_all_fail in E as (pre & n & post & s1 & -> & Epre & En).
      destruct (render_all_ok src dst _ _ _ Epre) as (_ & _ & _ & Hother & Hout).
      destruct (render_one_fail src dst _ _ _ _ En) as (Hfs & _).
      exists pre. rewrite Hfs. split_and!; [set_solver|done|].
      intros m Hm. destruct (Hout m Hm) as (? & png & _ & _ & _ & ->). by exists png.
    - destruct (render_all_ok src dst _ _ _ E) as (_ & _ & _ & Hother & Hout).
      exists names. split_and!; [done|done|].
      intros m Hm. destruct (Hout m Hm) as (? & png & _ & _ & _ & ->). by exists png. }
  destruct Hch as (done_ & Hsub & Hother & Hout).
  split_and!.
  - intros p Hp. destruct (decide (p ∈ dst_path dst <$> done_)) as [Hin|Hnin].
    + apply list_elem_of_fmap in Hin as (n & -> & Hn).
      exists n. split_and!; [by apply Hsub|done|apply parent_dst_path].
    + by rewrite Hother in Hp.
  - intros p Hp. apply elem_of_dom. apply elem_of_dom in Hp.
    destruct (decide (p ∈ dst_path dst <$> done_)) as [Hin|Hnin].
    + apply list_elem_of_fmap in Hin as (n & -> & Hn). by apply Hout.
    + by rewrite Hother.
  - intros m. apply Hother. intros (n & Em & _)%list_elem_of_fmap.
    symmetry in Em. by apply dst_is_not_src in Em.
Qed.

(** X5. The figures open before a run are still there after it, in the
    same order.  A run that completes, or that fails while loading or
    decoding, leaves no figure of its own; a run that fails while
    rendering or saving leaves exactly one, the spy plot it could not
    save, as the current figure: [plt.close()] is not reached. *)
Theorem figures_left_open (names : list string) (s s' : pystate) (r : failure + unit) :
  render_all names src dst s = (r, s') →
  match r with
  | inr _ => figs s' = figs s
  | inl f =>
      match f.1 with
      | Loading | Decoding => figs s' = figs s
      | Rendering | Saving => ∃ mat, figs s' = spy_figure mat :: figs s
      end
  end.
Proof.
  intros E. destruct r as [f|[]].
  - apply render_all_fail in E as (pre & n & post & s1 & -> & Epre & En).
    destruct (render_all_ok src dst _ _ _ Epre) as (_ & <- & _).
    rewrite render_one_eq in En. cbv zeta in En.
    repeat case_match; simplify_eq; simpl in *; simplify_eq; eauto.
  - by destruct (render_all_ok src dst _ _ _ E) as (_ & ? & _).
Qed.

Lemma render_all_runs_or (names : list string) (s : pystate) :
  Forall (λ n, ready src (fs s) n = true) names →
  names = [] ∨ dirs (fs s) !! dst = Some true →
  ∃ s', render_all names src dst s = (inr tt, s').
Proof. intros Hall [->|Hd]; [by exists s | by apply render_all_runs]. Qed.

Lemma ready_of_ok (names : list string) (s s' : pystate) :
  render_all names src dst s = (inr tt, s') →
  Forall (λ n, ready src (fs s) n = true) names
  ∧ (names = [] ∨ dirs (fs s) !! dst = Some true).
Proof.
  intros E. destruct (render_all_ok src dst _ _ _ E) as (_ & _ & _ & _ & Hout). split.
  - apply Forall_forall. intros n Hn.
    destruct (Hout n Hn) as (b & png & Hb & Hpng & _). apply ready_spec. by exists b, png.
  - destruct names as [|n ns]; [by left|]. right.
    destruct (Hout n) as (? & ? & _ & _ & Hd & _); [by left|done].
Qed.




(** X7. The disk a completed run leaves does not depend on the order of
    the names nor on repetitions among them: a list with the same
    members completes from the same state and leaves the same disk. *)
Theorem order_of_names_is_irrelevant (names1 names2 : list string) (s s1 : pystate) :
  (∀ n, n ∈ names1 ↔ n ∈ names2) →
  render_all names1 src dst s = (inr tt, s1) →
  ∃ s2, render_all names2 src dst s = (inr tt, s2) ∧ fs s2 = fs s1.
Proof.
  intros Hsame E1.
  destruct (ready_of_ok _ _ _ E1) as [Hready Hw].
  destruct (render_all_runs_or names2 s) as [s2 E2].
  { rewrite Forall_forall in Hready. apply Forall_forall. intros n Hn.
    apply Hready. by apply Hsame. }
  { destruct Hw as [->|Hwr]; [left|by right].
    destruct names2 as [|n ?]; [done|]. exfalso.
    apply (not_elem_of_nil n), Hsame. by left. }
  exists s2. split; [done|].
  destruct (render_all_ok src dst _ _ _ E1) as (_ & _ & Hd1 & Ho1 & Hout1).
  destruct (render_all_ok src dst _ _ _ E2) as (_ & _ & Hd2 & Ho2 & Hout2).
  assert (Hfiles : files (fs s2) = files (fs s1)).
  { apply map_eq. intros p.
    destruct (decide (p ∈ dst_path dst <$> names1)) as [Hin|Hnin].
    - apply list_elem_of_fmap in Hin as (n & -> & Hn).
      destruct (Hout1 n Hn) as (b & png & Hb & Hpng & _ & ->).
      destruct (Hout2 n) as (b' & png' & Hb' & Hpng' & _ & ->); [by apply Hsame|].
      congruence.
    - rewrite (Ho1 p Hnin). apply Ho2.
      intros (n & -> & Hn)%list_elem_of_fmap. apply Hnin.
      apply list_elem_of_fmap. exists n. split; [done|]. by apply Hsame. }
  destruct (fs s1), (fs s2); simpl in *. congruence.
Qed.

End Further.

(** * Further properties of the plot and of the paths *)

Lemma coo_from_columns (j0 : nat) (cols : list (list (nat * Q))) (i j : nat) (v : Q) :
  (i, j, v) ∈ coo_from j0 cols →
  j0 ≤ j < j0 + length cols ∧ ∃ c, cols !! (j - j0) = Some c ∧ (i, v) ∈ c.
Proof.
  revert j0. induction cols as [|c cs IH]; intros j0; simpl.
  { by intros ?%elem_of_nil. }
  intros [Hin|Hin]%elem_of_app.
  - apply list_elem_of_fmap in Hin as ([i' v'] & [= -> -> ->] & Hin).
    split; [lia|]. exists c. by rewrite Nat.sub_diag.
  - destruct (IH _ Hin) as (Hj & c' & Hc & Hiv). split; [lia|].
    exists c'. split; [|done].
    replace (j - j0) with (S (j - S j0)) by lia. done.
Qed.

(** X8. Every point of the spy plot comes from a stored entry of its
    column, so its x is a column of the matrix; when the row indices of
    the matrix are within its shape, every point lies strictly inside
    the limits the plot sets, which leave half a cell around the
    shape. *)
Theorem points_within_limits (mat : csc) :
  (∀ c i v, c ∈ columns mat → (i, v) ∈ c → i < nrows mat) →
  ∀ x y, (x, y) ∈ points (spy_figure mat) →
    x < ncols mat ∧ y < nrows mat
    ∧ (fst (ax_xlim (gca (spy_figure mat))) < inject_Z (Z.of_nat x)
       < snd (ax_xlim (gca (spy_figure mat))))%Q
    ∧ (snd (ax_ylim (gca (spy_figure mat))) < inject_Z (Z.of_nat y)
       < fst (ax_ylim (gca (spy_figure mat))))%Q.
Proof.
  intros Hrows x y. rewrite spy_figure_plot, points_plot_of.
  intros ([i j] & [= -> ->] & (v & Hin & _)%elem_of_nonzero_coords)%list_elem_of_fmap.
  apply coo_from_columns in Hin as (Hj & c & Hc & Hiv).
  assert (Hi : i < nrows mat).
  { apply (Hrows c i v); [|done]. by apply list_elem_of_lookup_2 in Hc. }
  fold (ncols mat) in Hj. simpl.
  split_and!; [lia | done | | | |]; unfold Qlt, half; simpl; lia.
Qed.

(** X9. For a script path of at most one component ([temp.py], or
    [/temp.py]) the directory of the script is the anchor itself, which
    is its own parent: the destination is then [graphics] inside the
    directory of the script, next to [npz], and not one level up. *)
Theorem script_without_parent_directory (file : path) :
  length file.2 ≤ 1 →
  WD file = (file.1, [])
  ∧ SRC_DIR file = (file.1, ["npz"])
  ∧ DST_DIR file = (file.1, ["graphics"])
  ∧ Pathlib.parent (DST_DIR file) = WD file
  ∧ Pathlib.parent (SRC_DIR file) = WD file.
Proof.
  destruct file as [a [|f [|g l]]]; simpl; intros Hlen; [done|done|lia].
Qed.

(** ** The statements at work on the demonstration disk *)

#[local] Existing Instance Demo.libs.

Lemma one_png_per_name_witness :
  render_all NAMES Demo.src Demo.dst (Demo.boot Demo.disk)
  = (inr tt, Demo.after NAMES Demo.disk)
  ∧ saved (trace (Demo.after NAMES Demo.disk))
    = [dst_path Demo.dst "A"; dst_path Demo.dst "A_min"; dst_path Demo.dst "A_rec"]
  ∧ dom (files (fs (Demo.after NAMES Demo.disk)))
    = dom Demo.inputs ∪ list_to_set (dst_path Demo.dst <$> NAMES)
  ∧ NoDup (dst_path Demo.dst <$> NAMES).
Proof.
  assert (E : render_all NAMES Demo.src Demo.dst (Demo.boot Demo.disk)
              = (inr tt, Demo.after NAMES Demo.disk)) by (vm_compute; reflexivity).
  destruct (@one_png_per_name Demo.libs Demo.src Demo.dst NAMES _ _ E)
    as (Hs & _ & Hdom & _ & _ & Hthree).
  split_and!; [exact E | exact Hs | exact Hdom | exact (proj2 (Hthree eq_refl))].
Defined.

Lemma abort_at_first_failure_witness :
  render_all ["A"] Demo.src Demo.dst (Demo.boot Demo.disk_missing)
  = (inr tt, Demo.after ["A"] Demo.disk_missing)
  ∧ render_one Demo.src Demo.dst "A_min" (Demo.after ["A"] Demo.disk_missing)
    = (inl (Loading, FileNotFoundError (src_path Demo.src "A_min")),
       Demo.after ["A"] Demo.disk_missing)
  ∧ render_all (["A"] ++ "A_min" :: ["A_rec"]) Demo.src Demo.dst (Demo.boot Demo.disk_missing)
    = (inl (Loading, FileNotFoundError (src_path Demo.src "A_min")),
       Demo.after ["A"] Demo.disk_missing)
  ∧ saved (trace (Demo.after ["A"] Demo.disk_missing)) = [dst_path Demo.dst "A"]
  ∧ files (fs (Demo.after ["A"] Demo.disk_missing)) !! dst_path Demo.dst "A_min" = None.
Proof.
  assert (E1 : render_all ["A"] Demo.src Demo.dst (Demo.boot Demo.disk_missing)
               = (inr tt, Demo.after ["A"] Demo.disk_missing)) by (vm_compute; reflexivity).
  assert (E2 : render_one Demo.src Demo.dst "A_min" (Demo.after ["A"] Demo.disk_missing)
               = (inl (Loading, FileNotFoundError (src_path Demo.src "A_min")),
                  Demo.after ["A"] Demo.disk_missing)) by (vm_compute; reflexivity).
  destruct (@abort_at_first_failure Demo.libs Demo.src Demo.dst ["A"] ["A_rec"] "A_min"
              _ _ _ _ E1 E2) as (Hrun & _ & Hs & _ & _ & Hn).
  split_and!; [exact E1 | exact E2 | exact Hrun | exact Hs |].
  rewrite Hn; [reflexivity|]. intros Hin. apply list_elem_of_singleton in Hin. discriminate Hin.
Defined.



Lemma names_in_sequence_witness :
  render_all NAMES Demo.src Demo.dst (Demo.boot Demo.disk)
  = (inr tt, Demo.after NAMES Demo.disk)
  ∧ trace (Demo.after NAMES Demo.disk)
    = cycle Demo.src Demo.dst "A" ++ cycle Demo.src Demo.dst "A_min"
      ++ cycle Demo.src Demo.dst "A_rec"
  ∧ figs (Demo.after NAMES Demo.disk) = [].
Proof.
  assert (E : render_all NAMES Demo.src Demo.dst (Demo.boot Demo.disk)
              = (inr tt, Demo.after NAMES Demo.disk)) by (vm_compute; reflexivity).
  destruct (@names_in_sequence Demo.libs Demo.src Demo.dst NAMES _ _ E) as (Ht & Hf & _).
  split_and!; [exact E | exact Ht | exact Hf].
Defined.

Lemma failure_kinds_and_diagnostics_witness :
  render_all NAMES Demo.src Demo.dst (Demo.boot Demo.disk_missing)
  = (inl (Loading, FileNotFoundError (src_path Demo.src "A_min")),
     Demo.after ["A"] Demo.disk_missing)
  ∧ ∃ n, fails_at NAMES Demo.src Demo.dst (Demo.boot Demo.disk_missing) n
           (Loading, FileNotFoundError (src_path Demo.src "A_min"))
         ∧ (∀ m, Some (src_path Demo.src "A_min") = Some (src_path Demo.src m)
                 ∨ Some (src_path Demo.src "A_min") = Some (dst_path Demo.dst m) → m = n).
Proof.
  assert (E : render_all NAMES Demo.src Demo.dst (Demo.boot Demo.disk_missing)
              = (inl (Loading, FileNotFoundError (src_path Demo.src "A_min")),
                 Demo.after ["A"] Demo.disk_missing)) by (vm_compute; reflexivity).
  split; [exact E|].
  destruct (failure_kinds_and_diagnostics Demo.libs _ _ _ _ _ _ E) as (n & Hn & _ & _ & _ & Hm).
  exists n. split; [exact Hn | exact Hm].
Defined.




Lemma destination_is_never_created_witness :
  script Demo.file (Demo.boot Demo.disk_no_graphics)
  = (inl (Saving, FileNotFoundError (dst_path (DST_DIR Demo.file) "A")),
     Demo.after NAMES Demo.disk_no_graphics)
  ∧ dirs (fs (Demo.boot Demo.disk_no_graphics)) !! DST_DIR Demo.file = None
  ∧ dirs (fs (Demo.after NAMES Demo.disk_no_graphics)) = ∅
  ∧ files (fs (Demo.after NAMES Demo.disk_no_graphics)) = Demo.inputs
  ∧ saved (trace (Demo.after NAMES Demo.disk_no_graphics)) = [].
Proof.
  assert (E : script Demo.file (Demo.boot Demo.disk_no_graphics)
              = (inl (Saving, FileNotFoundError (dst_path (DST_DIR Demo.file) "A")),
                 Demo.after NAMES Demo.disk_no_graphics)) by (vm_compute; reflexivity).
  assert (Hnone : dirs (fs (Demo.boot Demo.disk_no_graphics)) !! DST_DIR Demo.file = None)
    by reflexivity.
  destruct (destination_is_never_created Demo.libs _ _ _ _ E) as [Hdirs Hrest].
  destruct (Hrest Hnone) as (_ & Hfiles & Hsaved & _).
  split_and!; [exact E | exact Hnone | exact Hdirs | exact Hfiles | exact Hsaved].
Defined.


(** ** The further properties at work on the demonstration disk *)




Lemma only_outputs_change_witness :
  render_all NAMES Demo.src Demo.dst (Demo.boot Demo.disk_missing)
  = (inl (Loading, FileNotFoundError (src_path Demo.src "A_min")),
     Demo.after NAMES Demo.disk_missing)
  ∧ dom (files (fs (Demo.boot Demo.disk_missing)))
    ⊆ dom (files (fs (Demo.after NAMES Demo.disk_missing)))
  ∧ (∀ m, files (fs (Demo.after NAMES Demo.disk_missing)) !! src_path Demo.src m
          = files (fs (Demo.boot Demo.disk_missing)) !! src_path Demo.src m).
Proof.
  assert (E : render_all NAMES Demo.src Demo.dst (Demo.boot Demo.disk_missing)
              = (inl (Loading, FileNotFoundError (src_path Demo.src "A_min")),
                 Demo.after NAMES Demo.disk_missing)) by (vm_compute; reflexivity).
  split; [exact E|].
  exact (proj2 (only_outputs_change Demo.src Demo.dst NAMES _ _ _ E)).
Defined.

Lemma figures_left_open_witness :
  render_all NAMES Demo.src Demo.dst (Demo.boot Demo.disk_no_graphics)
  = (inl (Saving, FileNotFoundError (dst_path Demo.dst "A")),
     Demo.after NAMES Demo.disk_no_graphics)
  ∧ ∃ mat, figs (Demo.after NAMES Demo.disk_no_graphics)
           = spy_figure mat :: figs (Demo.boot Demo.disk_no_graphics).
Proof.
  assert (E : render_all NAMES Demo.src Demo.dst (Demo.boot Demo.disk_no_graphics)
              = (inl (Saving, FileNotFoundError (dst_path Demo.dst "A")),
                 Demo.after NAMES Demo.disk_no_graphics)) by (vm_compute; reflexivity).
  split; [exact E|].
  exact (figures_left_open Demo.src Demo.dst NAMES _ _ _ E).
Defined.


Lemma order_of_names_is_irrelevant_witness :
  render_all NAMES Demo.src Demo.dst (Demo.boot Demo.disk)
  = (inr tt, Demo.after NAMES Demo.disk)
  ∧ ∃ s2, render_all ["A_rec"; "A"; "A_min"; "A"] Demo.src Demo.dst (Demo.boot Demo.disk)
          = (inr tt, s2)
          ∧ fs s2 = fs (Demo.after NAMES Demo.disk).
Proof.
  assert (E : render_all NAMES Demo.src Demo.dst (Demo.boot Demo.disk)
              = (inr tt, Demo.after NAMES Demo.disk)) by (vm_compute; reflexivity).
  split; [exact E|].
  apply (order_of_names_is_irrelevant Demo.src Demo.dst NAMES ["A_rec"; "A"; "A_min"; "A"]
           _ _); [|exact E].
  intros n. unfold NAMES. rewrite !elem_of_cons, !elem_of_nil. tauto.
Defined.

Lemma points_within_limits_witness :
  (0, 0) ∈ points (spy_figure Demo.one)
  ∧ 0 < ncols Demo.one ∧ 0 < nrows Demo.one.
Proof.
  assert (Hp : (0, 0) ∈ points (spy_figure Demo.one)) by (vm_compute; apply list_elem_of_here).
  split; [exact Hp|].
  assert (Hrows : ∀ c i v, c ∈ columns Demo.one → (i, v) ∈ c → i < nrows Demo.one).
  { intros c i v Hc Hiv. simpl in *.
    apply list_elem_of_singleton in Hc. subst c.
    apply list_elem_of_singleton in Hiv. injection Hiv as -> _. lia. }
  destruct (points_within_limits Demo.one Hrows 0 0 Hp) as (Hx & Hy & _).
  split; [exact Hx | exact Hy].
Defined.

Lemma script_without_parent_directory_witness :
  length (false, ["temp.py"]).2 ≤ 1
  ∧ DST_DIR (false, ["temp.py"]) = (false, ["graphics"])
  ∧ Pathlib.parent (DST_DIR (false, ["temp.py"])) = WD (false, ["temp.py"]).
Proof.
  assert (Hlen : length (false, ["temp.py"]).2 ≤ 1) by (simpl; lia).
  destruct (script_without_parent_directory (false, ["temp.py"]) Hlen) as (_ & _ & Hd & Hp & _).
  split_and!; [exact Hlen | exact Hd | exact Hp].
Defined.
